(** * string_or_struct (edgelet-utils/src/ser_de.rs)

    A shallow embedding of [string_or_struct] together with the part of the
    serde / serde_json protocol it runs inside: the JSON value tree, the
    [Visitor] trait with serde's default methods, the [Deserializer] of a
    [serde_json::Value], and [serde::de::value::MapAccessDeserializer].

    The field deserializer [D] is modelled as an already tokenized
    [serde_json::Value]; errors are modelled by their message, i.e. the
    Display text of a [serde_json::Error] produced by a value deserializer
    (these carry no line/column). *)

From Stdlib Require Import String List ZArith NArith DecimalString.
Import ListNotations.
Open Scope string_scope.
Set Warnings "-register-all".

(** ** Errors and results *)

(** [serde_json::Error], by its message. *)
Record Error := mkError { message : string }.

(** [Result<A, serde_json::Error>]. *)
Inductive result (A : Type) : Type :=
| Ok (a : A)
| Err (e : Error).
Arguments Ok {A} a.
Arguments Err {A} e.

Definition map_result {A B} (f : A -> B) (r : result A) : result B :=
  match r with Ok a => Ok (f a) | Err e => Err e end.

(** [Result::map_err]. *)
Definition map_err {A} (f : Error -> Error) (r : result A) : result A :=
  match r with Ok a => Ok a | Err e => Err (f e) end.

(** Display text of a [serde_json::Error] (a value-level error: no position). *)
Definition display (e : Error) : string := message e.

(** [de::Error::custom(msg)] for [serde_json::Error]: the error whose message
    is [msg.to_string()]; applied to an error value it takes its Display. *)
Definition custom (e : Error) : Error := mkError (display e).

(** ** The JSON value tree ([serde_json::Value]) *)

(** [serde_json::Number]: non-negative integers, negative integers and
    floats; a float is carried by its Display rendering, no arithmetic on it
    is needed here. *)
Inductive Number :=
| PosInt (n : N)
| NegInt (z : Z)
| Float (repr : string).

Inductive Value :=
| VNull
| VBool (b : bool)
| VNumber (n : Number)
| VString (s : string)
| VArray (l : list Value)
| VObject (m : list (string * Value)).

(** The remaining entries of a [serde_json::value::MapDeserializer] / the
    remaining elements of a [SeqDeserializer]: the state a [MapAccess] or
    [SeqAccess] visitor consumes through [&mut]. *)
Definition MapState := list (string * Value).
Definition SeqState := list Value.

(** ** [serde::de::Unexpected] and the error constructors *)

Inductive Unexpected :=
| UBool (b : bool)
| UUnsigned (n : N)
| USigned (z : Z)
| UFloat (repr : string)
| UStr (s : string)
| UUnit
| UOption
| UNewtypeStruct
| USeq
| UMap.

Definition dq : string := String (Ascii.ascii_of_nat 34) EmptyString.
Definition bq : string := String (Ascii.ascii_of_nat 96) EmptyString.

Definition show_N (n : N) : string := NilZero.string_of_uint (N.to_uint n).
Definition show_Z (z : Z) : string := NilZero.string_of_int (Z.to_int z).

(** Display of [Unexpected] as serde_json shows it ([JsonUnexpected]: the
    unit value is shown as [null]); a string is shown by its Debug form,
    whose character escaping is left out here. *)
Definition show_unexpected (u : Unexpected) : string :=
  match u with
  | UBool b => "boolean " ++ bq ++ (if b then "true" else "false") ++ bq
  | UUnsigned n => "integer " ++ bq ++ show_N n ++ bq
  | USigned z => "integer " ++ bq ++ show_Z z ++ bq
  | UFloat r => "floating point " ++ bq ++ r ++ bq
  | UStr s => "string " ++ dq ++ s ++ dq
  | UUnit => "null"
  | UOption => "Option value"
  | UNewtypeStruct => "newtype struct"
  | USeq => "sequence"
  | UMap => "map"
  end.

(** [de::Error::invalid_type(unexp, exp)]: [exp] is given by the text its
    [Expected] impl writes, i.e. the visitor's [expecting]. *)
Definition invalid_type (u : Unexpected) (exp : string) : Error :=
  mkError ("invalid type: " ++ show_unexpected u ++ ", expected " ++ exp).

(** [de::Error::invalid_length(len, exp)]. *)
Definition invalid_length (len : nat) (exp : string) : Error :=
  mkError ("invalid length " ++ show_N (N.of_nat len) ++ ", expected " ++ exp).

(** [Value::unexpected]. *)
Definition number_unexpected (n : Number) : Unexpected :=
  match n with
  | PosInt k => UUnsigned k
  | NegInt z => USigned z
  | Float r => UFloat r
  end.

Definition value_unexpected (v : Value) : Unexpected :=
  match v with
  | VNull => UUnit
  | VBool b => UBool b
  | VNumber n => number_unexpected n
  | VString s => UStr s
  | VArray _ => USeq
  | VObject _ => UMap
  end.

(** ** The [Visitor] trait

    One field per visitor method that a [serde_json::Value] or a
    [MapAccessDeserializer] can call.  [visit_str] also stands for
    [visit_string] and [visit_borrowed_str], whose serde defaults forward to
    it.  [visit_some] and [visit_newtype_struct] receive the deserializer,
    which here is always a value.  [visit_seq] and [visit_map] thread the
    [&mut SeqAccess] / [&mut MapAccess] state: they return what is left. *)
Record Visitor (A : Type) := {
  expecting : string;
  visit_bool : bool -> result A;
  visit_u64 : N -> result A;
  visit_i64 : Z -> result A;
  visit_f64 : string -> result A;
  visit_str : string -> result A;
  visit_unit : result A;
  visit_none : result A;
  visit_some : Value -> result A;
  visit_newtype_struct : Value -> result A;
  visit_seq : SeqState -> result (A * SeqState);
  visit_map : MapState -> result (A * MapState)
}.
Arguments expecting {A} v.
Arguments visit_bool {A} v b.
Arguments visit_u64 {A} v n.
Arguments visit_i64 {A} v z.
Arguments visit_f64 {A} v r.
Arguments visit_str {A} v s.
Arguments visit_unit {A} v.
Arguments visit_none {A} v.
Arguments visit_some {A} v d.
Arguments visit_newtype_struct {A} v d.
Arguments visit_seq {A} v s.
Arguments visit_map {A} v m.

(** serde's default method bodies: each reports [invalid_type] against the
    visitor's own [expecting]. *)
Section Defaults.
Context {A : Type} (exp : string).
Definition default_visit_bool (b : bool) : result A := Err (invalid_type (UBool b) exp).
Definition default_visit_u64 (n : N) : result A := Err (invalid_type (UUnsigned n) exp).
Definition default_visit_i64 (z : Z) : result A := Err (invalid_type (USigned z) exp).
Definition default_visit_f64 (r : string) : result A := Err (invalid_type (UFloat r) exp).
Definition default_visit_str (s : string) : result A := Err (invalid_type (UStr s) exp).
Definition default_visit_unit : result A := Err (invalid_type UUnit exp).
Definition default_visit_none : result A := Err (invalid_type UOption exp).
Definition default_visit_some (d : Value) : result A := Err (invalid_type UOption exp).
Definition default_visit_newtype_struct (d : Value) : result A :=
  Err (invalid_type UNewtypeStruct exp).
Definition default_visit_seq (s : SeqState) : result (A * SeqState) :=
  Err (invalid_type USeq exp).
Definition default_visit_map (m : MapState) : result (A * MapState) :=
  Err (invalid_type UMap exp).
End Defaults.

(** ** The deserializers *)

(** Which [Deserializer] method a [Deserialize] impl calls: the hint it
    gives about the shape it expects. *)
Inductive Hint :=
| HAny
| HBool
| HNumber
| HStr
| HUnit
| HOption
| HNewtypeStruct
| HSeq
| HMap
| HStruct.

(** [serde_json::value::de::visit_array]: run [visit_seq] on a fresh
    [SeqDeserializer], then refuse elements it left over. *)
Definition visit_array {A} (l : list Value) (vis : Visitor A) : result A :=
  match visit_seq vis l with
  | Err e => Err e
  | Ok (a, rest) =>
      match rest with
      | [] => Ok a
      | _ :: _ => Err (invalid_length (length l) "fewer elements in array")
      end
  end.

(** [serde_json::value::de::visit_object]: run [visit_map] on a fresh
    [MapDeserializer], then refuse entries it left over. *)
Definition visit_object {A} (m : list (string * Value)) (vis : Visitor A) : result A :=
  match visit_map vis m with
  | Err e => Err e
  | Ok (a, rest) =>
      match rest with
      | [] => Ok a
      | _ :: _ => Err (invalid_length (length m) "fewer elements in map")
      end
  end.

(** [Number::deserialize_any]. *)
Definition number_deserialize_any {A} (n : Number) (vis : Visitor A) : result A :=
  match n with
  | PosInt k => visit_u64 vis k
  | NegInt z => visit_i64 vis z
  | Float r => visit_f64 vis r
  end.

(** [<Value as Deserializer>::deserialize_any]. *)
Definition value_deserialize_any {A} (v : Value) (vis : Visitor A) : result A :=
  match v with
  | VNull => visit_unit vis
  | VBool b => visit_bool vis b
  | VNumber n => number_deserialize_any n vis
  | VString s => visit_str vis s
  | VArray l => visit_array l vis
  | VObject m => visit_object m vis
  end.

(** [Value::invalid_type]. *)
Definition value_invalid_type {A} (v : Value) (vis : Visitor A) : Error :=
  invalid_type (value_unexpected v) (expecting vis).

(** [<Value as Deserializer>::deserialize_*], by hint. *)
Definition deserialize_value {A} (h : Hint) (v : Value) (vis : Visitor A) : result A :=
  match h with
  | HAny => value_deserialize_any v vis
  | HBool =>
      match v with VBool b => visit_bool vis b | _ => Err (value_invalid_type v vis) end
  | HNumber =>
      match v with
      | VNumber n => number_deserialize_any n vis
      | _ => Err (value_invalid_type v vis)
      end
  | HStr =>
      match v with VString s => visit_str vis s | _ => Err (value_invalid_type v vis) end
  | HUnit =>
      match v with VNull => visit_unit vis | _ => Err (value_invalid_type v vis) end
  | HOption =>
      match v with VNull => visit_none vis | _ => visit_some vis v end
  | HNewtypeStruct => visit_newtype_struct vis v
  | HSeq =>
      match v with VArray l => visit_array l vis | _ => Err (value_invalid_type v vis) end
  | HMap =>
      match v with VObject m => visit_object m vis | _ => Err (value_invalid_type v vis) end
  | HStruct =>
      match v with
      | VArray l => visit_array l vis
      | VObject m => visit_object m vis
      | _ => Err (value_invalid_type v vis)
      end
  end.

(** [<MapAccessDeserializer<A> as Deserializer>::deserialize_*]: every
    method is [forward_to_deserialize_any!], and [deserialize_any] is
    [visitor.visit_map(self.map)]; the [&mut] map state comes back to the
    caller. *)
Definition deserialize_map_access {A} (h : Hint) (m : MapState) (vis : Visitor A)
  : result (A * MapState) :=
  visit_map vis m.

(** A [Deserialize] impl: the one deserializer method it calls and the
    visitor it passes. *)
Record Deserialize (T : Type) := {
  de_hint : Hint;
  de_visitor : Visitor T
}.
Arguments de_hint {T} d.
Arguments de_visitor {T} d.

(** [T::deserialize(value)]: T's own structured-decode routine run directly
    on a value. *)
Definition deserialize {T} (D : Deserialize T) (v : Value) : result T :=
  deserialize_value (de_hint D) v (de_visitor D).

(** [T::deserialize(MapAccessDeserializer::new(map))]. *)
Definition deserialize_from_map_access {T} (D : Deserialize T) (m : MapState)
  : result (T * MapState) :=
  deserialize_map_access (de_hint D) m (de_visitor D).

(** ** [string_or_struct] *)

Section StringOrStruct.
Context {T : Type}.
(** [T: Deserialize<'de>] *)
Variable deserialize_T : Deserialize T.
(** [T: FromStr<Err = serde_json::Error>] *)
Variable from_str : string -> result T.

(** [impl Visitor for StringOrStruct<T>]: [expecting], [visit_str] and
    [visit_map] are written in the source; the rest are serde's defaults. *)
Definition StringOrStruct : Visitor T :=
  let exp := "string or map" in
  {| expecting := exp;
     visit_bool := default_visit_bool exp;
     visit_u64 := default_visit_u64 exp;
     visit_i64 := default_visit_i64 exp;
     visit_f64 := default_visit_f64 exp;
     visit_str := fun value => map_err custom (from_str value);
     visit_unit := default_visit_unit exp;
     visit_none := default_visit_none exp;
     visit_some := default_visit_some exp;
     visit_newtype_struct := default_visit_newtype_struct exp;
     visit_seq := default_visit_seq exp;
     visit_map := fun visitor => deserialize_from_map_access deserialize_T visitor |}.

(** [deserializer.deserialize_any(StringOrStruct(PhantomData))]. *)
Definition string_or_struct (deserializer : Value) : result T :=
  value_deserialize_any deserializer StringOrStruct.

End StringOrStruct.

(** ** Target types of the test module, with their derived impls *)

(** A visitor whose every method is serde's default. *)
Definition default_visitor {A} (exp : string) : Visitor A :=
  {| expecting := exp;
     visit_bool := default_visit_bool exp;
     visit_u64 := default_visit_u64 exp;
     visit_i64 := default_visit_i64 exp;
     visit_f64 := default_visit_f64 exp;
     visit_str := default_visit_str exp;
     visit_unit := default_visit_unit exp;
     visit_none := default_visit_none exp;
     visit_some := default_visit_some exp;
     visit_newtype_struct := default_visit_newtype_struct exp;
     visit_seq := default_visit_seq exp;
     visit_map := default_visit_map exp |}.

(** [impl Deserialize for String]: [deserialize_string(StringVisitor)]. *)
Definition string_deserialize : Deserialize string :=
  let d := default_visitor "a string" in
  {| de_hint := HStr;
     de_visitor :=
       {| expecting := expecting d; visit_bool := visit_bool d;
          visit_u64 := visit_u64 d; visit_i64 := visit_i64 d;
          visit_f64 := visit_f64 d; visit_str := fun s => Ok s;
          visit_unit := visit_unit d; visit_none := visit_none d;
          visit_some := visit_some d;
          visit_newtype_struct := visit_newtype_struct d;
          visit_seq := visit_seq d; visit_map := visit_map d |} |}.

(** [impl Deserialize for Option<String>]: [deserialize_option(OptionVisitor)]. *)
Definition option_string_deserialize : Deserialize (option string) :=
  let d := default_visitor "option" in
  {| de_hint := HOption;
     de_visitor :=
       {| expecting := expecting d; visit_bool := visit_bool d;
          visit_u64 := visit_u64 d; visit_i64 := visit_i64 d;
          visit_f64 := visit_f64 d; visit_str := visit_str d;
          visit_unit := Ok None; visit_none := Ok None;
          visit_some := fun v => map_result Some (deserialize string_deserialize v);
          visit_newtype_struct := visit_newtype_struct d;
          visit_seq := visit_seq d; visit_map := visit_map d |} |}.

(** [struct Options { opt1: String, opt2: Option<String> }] *)
Record Options := mkOptions { opt1 : string; opt2 : option string }.

Definition missing_field (f : string) : Error := mkError ("missing field " ++ bq ++ f ++ bq).
Definition duplicate_field (f : string) : Error := mkError ("duplicate field " ++ bq ++ f ++ bq).

(** The [while let Some(key) = map.next_key()?] loop of the derived
    [visit_map] of [Options], then the [missing_field] fallbacks (an absent
    [Option] field is [None]). *)
Fixpoint options_visit_map (o1 : option string) (o2 : option (option string))
    (m : MapState) : result (Options * MapState) :=
  match m with
  | [] =>
      match o1 with
      | None => Err (missing_field "opt1")
      | Some a => Ok (mkOptions a (match o2 with Some x => x | None => None end), [])
      end
  | (k, v) :: rest =>
      if String.eqb k "opt1" then
        match o1 with
        | Some _ => Err (duplicate_field "opt1")
        | None =>
            match deserialize string_deserialize v with
            | Err e => Err e
            | Ok a => options_visit_map (Some a) o2 rest
            end
        end
      else if String.eqb k "opt2" then
        match o2 with
        | Some _ => Err (duplicate_field "opt2")
        | None =>
            match deserialize option_string_deserialize v with
            | Err e => Err e
            | Ok b => options_visit_map o1 (Some b) rest
            end
        end
      else options_visit_map o1 o2 rest
  end.

(** The derived [visit_seq] of [Options]: fields in declaration order. *)
Definition options_visit_seq (l : SeqState) : result (Options * SeqState) :=
  let exp := "struct Options with 2 elements" in
  match l with
  | [] => Err (invalid_length 0 exp)
  | x :: l1 =>
      match deserialize string_deserialize x with
      | Err e => Err e
      | Ok a =>
          match l1 with
          | [] => Err (invalid_length 1 exp)
          | y :: l2 =>
              match deserialize option_string_deserialize y with
              | Err e => Err e
              | Ok b => Ok (mkOptions a b, l2)
              end
          end
      end
  end.

(** [#[derive(Deserialize)] struct Options]: [deserialize_struct]. *)
Definition options_deserialize : Deserialize Options :=
  let d := default_visitor "struct Options" in
  {| de_hint := HStruct;
     de_visitor :=
       {| expecting := expecting d; visit_bool := visit_bool d;
          visit_u64 := visit_u64 d; visit_i64 := visit_i64 d;
          visit_f64 := visit_f64 d; visit_str := visit_str d;
          visit_unit := visit_unit d; visit_none := visit_none d;
          visit_some := visit_some d;
          visit_newtype_struct := visit_newtype_struct d;
          visit_seq := options_visit_seq;
          visit_map := options_visit_map None None |} |}.

(** [#[derive(Deserialize)] struct Wrapper(Options)]: a newtype struct,
    decoded through [deserialize_newtype_struct]. *)
Record Wrapper := mkWrapper { wrapped : Options }.

Definition wrapper_deserialize : Deserialize Wrapper :=
  let d := default_visitor "tuple struct Wrapper" in
  {| de_hint := HNewtypeStruct;
     de_visitor :=
       {| expecting := expecting d; visit_bool := visit_bool d;
          visit_u64 := visit_u64 d; visit_i64 := visit_i64 d;
          visit_f64 := visit_f64 d; visit_str := visit_str d;
          visit_unit := visit_unit d; visit_none := visit_none d;
          visit_some := visit_some d;
          visit_newtype_struct := fun v => map_result mkWrapper (deserialize options_deserialize v);
          visit_seq := fun l =>
            match l with
            | [] => Err (invalid_length 0 "tuple struct Wrapper with 1 element")
            | x :: rest =>
                match deserialize options_deserialize x with
                | Err e => Err e
                | Ok o => Ok (mkWrapper o, rest)
                end
            end;
          visit_map := visit_map d |} |}.

(** A [FromStr] for the examples, which accepts a bare [opt1] value. *)
Definition options_from_opt1 (s : string) : result Options :=
  match s with
  | EmptyString => Err (mkError "EOF while parsing a value")
  | _ => Ok (mkOptions s None)
  end.

(** [struct Container { #[serde(deserialize_with = "string_or_struct")]
    options: Options }]: the caller of [string_or_struct] in the test
    module.  [Options::from_str] is [serde_json::from_str], a JSON text
    parser that is not embedded here: it is the parameter [options_from_str]. *)
Record Container := mkContainer { options : Options }.

Section ContainerDe.
Variable options_from_str : string -> result Options.

(** [__DeserializeWith::deserialize]: the field's value goes to
    [string_or_struct]. *)
Definition options_field (v : Value) : result Options :=
  string_or_struct options_deserialize options_from_str v.

(** The derived [visit_map] of [Container]: the [next_key] loop, a
    [duplicate_field] check, unknown keys read as [IgnoredAny] (which accepts
    every value), then [missing_field] (a [deserialize_with] field has no
    default). *)
Fixpoint container_visit_map (o : option Options) (m : MapState)
  : result (Container * MapState) :=
  match m with
  | [] =>
      match o with
      | None => Err (missing_field "options")
      | Some x => Ok (mkContainer x, [])
      end
  | (k, v) :: rest =>
      if String.eqb k "options" then
        match o with
        | Some _ => Err (duplicate_field "options")
        | None =>
            match options_field v with
            | Err e => Err e
            | Ok x => container_visit_map (Some x) rest
            end
        end
      else container_visit_map o rest
  end.

(** The derived [visit_seq] of [Container]: one element, read through
    [string_or_struct]. *)
Definition container_visit_seq (l : SeqState) : result (Container * SeqState) :=
  match l with
  | [] => Err (invalid_length 0 "struct Container with 1 element")
  | x :: rest =>
      match options_field x with
      | Err e => Err e
      | Ok o => Ok (mkContainer o, rest)
      end
  end.

(** [#[derive(Deserialize)] struct Container]: [deserialize_struct]. *)
Definition container_deserialize : Deserialize Container :=
  let d := default_visitor "struct Container" in
  {| de_hint := HStruct;
     de_visitor :=
       {| expecting := expecting d; visit_bool := visit_bool d;
          visit_u64 := visit_u64 d; visit_i64 := visit_i64 d;
          visit_f64 := visit_f64 d; visit_str := visit_str d;
          visit_unit := visit_unit d; visit_none := visit_none d;
          visit_some := visit_some d;
          visit_newtype_struct := visit_newtype_struct d;
          visit_seq := container_visit_seq;
          visit_map := container_visit_map None |} |}.

End ContainerDe.

(** ** Helpers for the statements *)

Fixpoint prefixb (p s : string) : bool :=
  match p, s with
  | EmptyString, _ => true
  | String a p', String b s' => Ascii.eqb a b && prefixb p' s'
  | String _ _, EmptyString => false
  end.

(** [s.contains(needle)]. *)
Fixpoint contains (s needle : string) : bool :=
  prefixb needle s ||
  match s with
  | EmptyString => false
  | String _ s' => contains s' needle
  end.

Definition is_string (v : Value) : bool := match v with VString _ => true | _ => false end.
Definition is_map (v : Value) : bool := match v with VObject _ => true | _ => false end.
Definition is_array (v : Value) : bool := match v with VArray _ => true | _ => false end.

(** Whether a map's entries have the key [k]. *)
Definition has_key (k : string) (m : list (string * Value)) : bool :=
  existsb (fun e => String.eqb (fst e) k) m.

(** Scenarios of the spec, on the test module's [Options]. *)
Example scenario_map :
  string_or_struct options_deserialize options_from_opt1
    (VObject [("opt1", VString "val1"); ("opt2", VString "val2")])
  = Ok (mkOptions "val1" (Some "val2")).
Proof. reflexivity. Qed.

Example scenario_number :
  string_or_struct options_deserialize options_from_opt1 (VNumber (PosInt 42))
  = Err (mkError ("invalid type: integer " ++ bq ++ "42" ++ bq ++ ", expected string or map")).
Proof. reflexivity. Qed.

Example scenario_missing_optional :
  string_or_struct options_deserialize options_from_opt1
    (VObject [("opt1", VString "val1")])
  = Ok (mkOptions "val1" None).
Proof. reflexivity. Qed.

(** ** Shape dispatch of [string_or_struct] *)

Section Dispatch.
Context {T : Type} (D : Deserialize T) (from_str : string -> result T).

Lemma string_or_struct_string (s : string) :
  string_or_struct D from_str (VString s) = map_err custom (from_str s).
Proof. reflexivity. Qed.

Lemma string_or_struct_object (m : list (string * Value)) :
  string_or_struct D from_str (VObject m) = visit_object m (de_visitor D).
Proof. reflexivity. Qed.

Lemma string_or_struct_other (v : Value) :
  is_string v = false -> is_map v = false ->
  string_or_struct D from_str v = Err (invalid_type (value_unexpected v) "string or map").
Proof.
  destruct v as [ | b | [k | z | r] | s | l | m ]; simpl; intros Hs Hm;
    try discriminate; reflexivity.
Qed.

End Dispatch.

Lemma prefixb_refl (s : string) : prefixb s s = true.
Proof.
  induction s as [ | a s IH ]; simpl; [reflexivity | ].
  rewrite Ascii.eqb_refl, IH; reflexivity.
Qed.

Lemma contains_app_r (p n : string) : contains (p ++ n) n = true.
Proof.
  induction p as [ | a p IH ]; simpl.
  - destruct n; [reflexivity | ].
    cbn [contains]; rewrite prefixb_refl; reflexivity.
  - rewrite IH, Bool.orb_true_r; reflexivity.
Qed.

(** Which hints make [serde_json::Value] hand an object to [visit_map]. *)
Definition asks_map (h : Hint) : bool :=
  match h with HAny | HMap | HStruct => true | _ => false end.

Lemma string_append_assoc (a b c : string) : a ++ (b ++ c) = (a ++ b) ++ c.
Proof. induction a as [ | x a IH ]; simpl; [reflexivity | rewrite IH; reflexivity]. Qed.

Lemma invalid_type_mentions (u : Unexpected) (exp : string) :
  contains (message (invalid_type u exp)) exp = true.
Proof.
  unfold invalid_type; cbn [message].
  rewrite !string_append_assoc.
  apply contains_app_r.
Qed.

(** [Wrapper]'s [FromStr] for the examples. *)
Definition wrapper_from_opt1 (s : string) : result Wrapper :=
  map_result mkWrapper (options_from_opt1 s).

(** ** The claims *)

Section Claims.
Context {T : Type} (D : Deserialize T) (from_str : string -> result T).

(** C1 (as amended): on a map value, [string_or_struct] runs T's own
    [visit_map] on the map's entries (the [MapAccessDeserializer] view,
    which answers every request with [visit_map]) followed by serde_json's
    leftover-entries check; when T's decode routine asks the deserializer
    for any shape, a map or a struct (as derived structs do), this is
    exactly what decoding the map directly with T gives. *)
Theorem string_or_struct_map_refines (m : list (string * Value)) :
  string_or_struct D from_str (VObject m) = visit_object m (de_visitor D) /\
  (asks_map (de_hint D) = true ->
   string_or_struct D from_str (VObject m) = deserialize D (VObject m)).
Proof.
  split; [apply string_or_struct_object | ].
  intros H. rewrite string_or_struct_object. unfold deserialize.
  destruct (de_hint D); try discriminate; reflexivity.
Qed.

(** C2: a string accepted by T's [from_str] decodes to exactly the value
    [from_str] returns for it; since [from_str] is arbitrary, the string
    reaches it verbatim. *)
Theorem string_or_struct_str_ok (s : string) (t : T) :
  from_str s = Ok t -> string_or_struct D from_str (VString s) = Ok t.
Proof. intros H. rewrite string_or_struct_string, H. reflexivity. Qed.

(** C3: a value that is neither a string nor a map is refused, with a
    message that mentions "string or map". *)
Theorem string_or_struct_other_fails (v : Value) :
  is_string v = false -> is_map v = false ->
  exists e, string_or_struct D from_str v = Err e /\
            contains (message e) "string or map" = true.
Proof.
  intros Hs Hm. exists (invalid_type (value_unexpected v) "string or map").
  split; [apply string_or_struct_other; assumption | apply invalid_type_mentions].
Qed.

(** C4: a string refused by T's [from_str] gives the failure
    [de::Error::custom] builds from the parser's error, whose message is the
    parser's error message unchanged. *)
Theorem string_or_struct_str_err (s : string) (e : Error) :
  from_str s = Err e ->
  string_or_struct D from_str (VString s) = Err (custom e) /\
  message (custom e) = message e.
Proof. intros H. rewrite string_or_struct_string, H. split; reflexivity. Qed.

(** C5: a failure of T's structured-decode routine on the map's entries is
    the failure [string_or_struct] returns. *)
Theorem string_or_struct_map_err (m : list (string * Value)) (e : Error) :
  deserialize_from_map_access D m = Err e ->
  string_or_struct D from_str (VObject m) = Err e.
Proof.
  intros H. rewrite string_or_struct_object. unfold visit_object.
  unfold deserialize_from_map_access, deserialize_map_access in H.
  rewrite H. reflexivity.
Qed.

(** C6: two invocations on the same value give the same result. *)
Theorem string_or_struct_deterministic (v : Value) (r1 r2 : result T) :
  string_or_struct D from_str v = r1 ->
  string_or_struct D from_str v = r2 -> r1 = r2.
Proof. intros H1 H2. rewrite <- H1, <- H2. reflexivity. Qed.

(** C7: the result is a failure or a value that one of T's capabilities
    produced in full: [from_str] on the string, or T's structured-decode
    routine on the map having consumed every entry. *)
Theorem string_or_struct_total_result (v : Value) :
  match string_or_struct D from_str v with
  | Ok t =>
      (exists s, v = VString s /\ from_str s = Ok t) \/
      (exists m, v = VObject m /\ deserialize_from_map_access D m = Ok (t, []))
  | Err _ => True
  end.
Proof.
  destruct (is_string v) eqn:Hs; [ | destruct (is_map v) eqn:Hm].
  - destruct v; try discriminate. rewrite string_or_struct_string.
    destruct (from_str s) eqn:Hf; simpl; [ | exact I].
    left. exists s. split; [reflexivity | exact Hf].
  - destruct v; try discriminate. rewrite string_or_struct_object.
    unfold visit_object.
    destruct (visit_map (de_visitor D) m) as [[t rest] | e] eqn:Hv; [ | exact I].
    destruct rest; [ | exact I].
    right. exists m. split; [reflexivity | exact Hv].
  - rewrite (string_or_struct_other D from_str v Hs Hm). exact I.
Qed.

(** C8: [string_or_struct] is total and does a bounded amount of work: it
    returns after at most one call into T, [from_str] on a string or T's
    [visit_map] on a map, and after none otherwise. *)
Theorem string_or_struct_terminates (v : Value) :
  exists r, string_or_struct D from_str v = r /\
   ((exists s, v = VString s /\ r = map_err custom (from_str s)) \/
    (exists m, v = VObject m /\ r = visit_object m (de_visitor D)) \/
    (is_string v = false /\ is_map v = false /\
     r = Err (invalid_type (value_unexpected v) "string or map"))).
Proof.
  exists (string_or_struct D from_str v). split; [reflexivity | ].
  destruct (is_string v) eqn:Hs; [ | destruct (is_map v) eqn:Hm].
  - destruct v; try discriminate. left. exists s. split; reflexivity.
  - destruct v; try discriminate. right; left. exists m. split; reflexivity.
  - right; right. split; [reflexivity | split; [reflexivity | ]].
    apply string_or_struct_other; assumption.
Qed.

(** C9: an empty map goes to T's structured-decode routine; provided that
    routine leaves no entry of the empty map unconsumed (as a [MapAccess]
    cannot), the result is exactly that routine's. *)
Theorem string_or_struct_empty_map :
  (forall t rest, deserialize_from_map_access D [] = Ok (t, rest) -> rest = []) ->
  string_or_struct D from_str (VObject []) =
  match deserialize_from_map_access D [] with
  | Ok (t, _) => Ok t
  | Err e => Err e
  end.
Proof.
  intros H. rewrite string_or_struct_object. unfold visit_object.
  unfold deserialize_from_map_access, deserialize_map_access in *.
  destruct (visit_map (de_visitor D) []) as [[t rest] | e]; [ | reflexivity].
  rewrite (H t rest eq_refl). reflexivity.
Qed.

End Claims.

(** C10: on a value that is neither a string nor a map the failure does not
    depend on the target type: any two targets, with any capabilities, get
    the same error. *)
Theorem string_or_struct_other_independent {T1 T2 : Type}
    (D1 : Deserialize T1) (f1 : string -> result T1)
    (D2 : Deserialize T2) (f2 : string -> result T2) (v : Value) :
  is_string v = false -> is_map v = false ->
  exists e, string_or_struct D1 f1 v = Err e /\ string_or_struct D2 f2 v = Err e.
Proof.
  intros Hs Hm. exists (invalid_type (value_unexpected v) "string or map").
  split; apply string_or_struct_other; assumption.
Qed.

(** ** Witnesses and counterexample *)

Definition sample_entries : list (string * Value) :=
  [("opt1", VString "val1"); ("opt2", VString "val2")].

(** C1, refuted as first stated: for the derived newtype struct [Wrapper],
    decoding a map directly succeeds through [visit_newtype_struct], while
    [string_or_struct] hands Wrapper's visitor a [MapAccessDeserializer],
    which calls [visit_map], and Wrapper's derived visitor refuses maps. *)
Lemma string_or_struct_map_newtype_differs :
  string_or_struct wrapper_deserialize wrapper_from_opt1 (VObject [("opt1", VString "val1")])
  = Err (invalid_type UMap "tuple struct Wrapper") /\
  deserialize wrapper_deserialize (VObject [("opt1", VString "val1")])
  = Ok (mkWrapper (mkOptions "val1" None)).
Proof. split; reflexivity. Qed.

Lemma string_or_struct_map_refines_witness :
  asks_map (de_hint options_deserialize) = true /\
  string_or_struct options_deserialize options_from_opt1 (VObject sample_entries)
  = deserialize options_deserialize (VObject sample_entries).
Proof.
  split; [reflexivity | ].
  apply (proj2 (string_or_struct_map_refines options_deserialize options_from_opt1 sample_entries)).
  reflexivity.
Defined.

Lemma string_or_struct_str_ok_witness :
  options_from_opt1 "val1" = Ok (mkOptions "val1" None) /\
  string_or_struct options_deserialize options_from_opt1 (VString "val1")
  = Ok (mkOptions "val1" None).
Proof.
  split; [reflexivity | ].
  apply (string_or_struct_str_ok options_deserialize options_from_opt1).
  reflexivity.
Defined.

Lemma string_or_struct_other_fails_witness :
  is_string (VNumber (PosInt 42)) = false /\ is_map (VNumber (PosInt 42)) = false /\
  exists e, string_or_struct options_deserialize options_from_opt1 (VNumber (PosInt 42)) = Err e /\
            contains (message e) "string or map" = true.
Proof.
  split; [reflexivity | split; [reflexivity | ]].
  apply (string_or_struct_other_fails options_deserialize options_from_opt1); reflexivity.
Defined.

Lemma string_or_struct_str_err_witness :
  options_from_opt1 "" = Err (mkError "EOF while parsing a value") /\
  string_or_struct options_deserialize options_from_opt1 (VString "")
  = Err (custom (mkError "EOF while parsing a value")) /\
  message (custom (mkError "EOF while parsing a value")) = "EOF while parsing a value".
Proof.
  split; [reflexivity | ].
  apply (string_or_struct_str_err options_deserialize options_from_opt1).
  reflexivity.
Defined.

Lemma string_or_struct_map_err_witness :
  deserialize_from_map_access options_deserialize [("opt2", VString "val2")]
  = Err (missing_field "opt1") /\
  string_or_struct options_deserialize options_from_opt1 (VObject [("opt2", VString "val2")])
  = Err (missing_field "opt1").
Proof.
  split; [reflexivity | ].
  apply (string_or_struct_map_err options_deserialize options_from_opt1).
  reflexivity.
Defined.

Lemma string_or_struct_deterministic_witness :
  Ok (mkOptions "val1" (Some "val2")) = Ok (mkOptions "val1" (Some "val2")) :> result Options.
Proof.
  apply (string_or_struct_deterministic options_deserialize options_from_opt1
           (VObject sample_entries)); reflexivity.
Defined.

Lemma string_or_struct_empty_map_witness :
  string_or_struct options_deserialize options_from_opt1 (VObject [])
  = Err (missing_field "opt1").
Proof.
  apply (string_or_struct_empty_map options_deserialize options_from_opt1).
  intros t rest H. vm_compute in H. discriminate H.
Defined.

Lemma string_or_struct_other_independent_witness :
  is_string VNull = false /\ is_map VNull = false /\
  exists e, string_or_struct options_deserialize options_from_opt1 VNull = Err e /\
            string_or_struct wrapper_deserialize wrapper_from_opt1 VNull = Err e.
Proof.
  split; [reflexivity | split; [reflexivity | ]].
  apply (string_or_struct_other_independent options_deserialize options_from_opt1
           wrapper_deserialize wrapper_from_opt1); reflexivity.
Defined.

(** ** The test module's [Container] and [Options] decoders *)

Lemma has_key_cons (k k' : string) (v : Value) (m : list (string * Value)) :
  has_key k ((k', v) :: m) = false <-> String.eqb k' k = false /\ has_key k m = false.
Proof. unfold has_key; simpl. apply Bool.orb_false_iff. Qed.

Lemma container_visit_map_skip (f : string -> result Options) (o : option Options)
    (m r : list (string * Value)) :
  has_key "options" m = false ->
  container_visit_map f o (m ++ r)%list = container_visit_map f o r.
Proof.
  revert o; induction m as [ | [k v] m IH ]; intros o H; [reflexivity | ].
  apply has_key_cons in H as [Hk Hm]. simpl. rewrite Hk. apply IH, Hm.
Qed.

Lemma container_visit_map_end (f : string -> result Options) (o : option Options)
    (m : list (string * Value)) :
  has_key "options" m = false ->
  container_visit_map f o m =
  match o with None => Err (missing_field "options") | Some x => Ok (mkContainer x, []) end.
Proof.
  intros H. rewrite <- (app_nil_r m), (container_visit_map_skip f o m [] H).
  destruct o; reflexivity.
Qed.

Section OptionsFacts.

Lemma options_visit_map_skip (o1 : option string) (o2 : option (option string))
    (m r : list (string * Value)) :
  has_key "opt1" m = false -> has_key "opt2" m = false ->
  options_visit_map o1 o2 (m ++ r)%list = options_visit_map o1 o2 r.
Proof.
  revert o1 o2; induction m as [ | [k v] m IH ]; intros o1 o2 H1 H2; [reflexivity | ].
  apply has_key_cons in H1 as [Hk1 Hm1]. apply has_key_cons in H2 as [Hk2 Hm2].
  simpl. rewrite Hk1, Hk2. apply IH; assumption.
Qed.

Lemma options_visit_map_rest (o1 : option string) (o2 : option (option string))
    (m rest : list (string * Value)) (x : Options) :
  options_visit_map o1 o2 m = Ok (x, rest) -> rest = [].
Proof.
  revert o1 o2; induction m as [ | [k v] m IH ]; intros o1 o2 H; simpl in H.
  - destruct o1; [ | discriminate]. injection H; intros; subst; reflexivity.
  - destruct (String.eqb k "opt1").
    + destruct o1; [discriminate | ].
      destruct (deserialize string_deserialize v); [eapply IH; exact H | discriminate].
    + destruct (String.eqb k "opt2"); [ | eapply IH; exact H].
      destruct o2; [discriminate | ].
      destruct (deserialize option_string_deserialize v); [eapply IH; exact H | discriminate].
Qed.

Lemma options_visit_map_no_opt1 (o2 : option (option string))
    (m : list (string * Value)) (x : Options) (rest : list (string * Value)) :
  has_key "opt1" m = false -> options_visit_map None o2 m <> Ok (x, rest).
Proof.
  revert o2; induction m as [ | [k v] m IH ]; intros o2 H; simpl; [discriminate | ].
  apply has_key_cons in H as [Hk Hm]. rewrite Hk.
  destruct (String.eqb k "opt2"); [ | apply IH, Hm].
  destruct o2; [discriminate | ].
  destruct (deserialize option_string_deserialize v); [apply IH, Hm | discriminate].
Qed.

End OptionsFacts.

Section ContainerFacts.
Variable f : string -> result Options.

(** The caller composes with [string_or_struct]: in a map whose only
    ["options"] entry holds [v], the [Container] gets exactly what
    [string_or_struct] makes of [v]; other keys are ignored. *)
Theorem container_options_entry (pre post : list (string * Value)) (v : Value) :
  has_key "options" pre = false -> has_key "options" post = false ->
  deserialize (container_deserialize f) (VObject (pre ++ ("options", v) :: post)%list)
  = map_result mkContainer (string_or_struct options_deserialize f v).
Proof.
  intros Hpre Hpost. unfold deserialize. cbn [de_hint de_visitor container_deserialize deserialize_value].
  unfold visit_object. cbn [visit_map].
  rewrite container_visit_map_skip by exact Hpre. cbn [container_visit_map].
  change (String.eqb "options" "options") with true. cbn iota.
  unfold options_field. destruct (string_or_struct options_deserialize f v); [ | reflexivity].
  rewrite container_visit_map_end by exact Hpost. reflexivity.
Qed.

(** A map without an ["options"] key is refused with [missing field]. *)
Theorem container_missing_options (m : list (string * Value)) :
  has_key "options" m = false ->
  deserialize (container_deserialize f) (VObject m) = Err (missing_field "options").
Proof.
  intros H. unfold deserialize. cbn [de_hint de_visitor container_deserialize deserialize_value].
  unfold visit_object. cbn [visit_map]. rewrite container_visit_map_end by exact H.
  reflexivity.
Qed.

(** A second ["options"] entry after one that decoded is refused with
    [duplicate field], whatever it holds. *)
Theorem container_duplicate_options (pre mid post : list (string * Value))
    (v1 v2 : Value) (x : Options) :
  has_key "options" pre = false -> has_key "options" mid = false ->
  string_or_struct options_deserialize f v1 = Ok x ->
  deserialize (container_deserialize f)
    (VObject (pre ++ ("options", v1) :: mid ++ ("options", v2) :: post)%list)
  = Err (duplicate_field "options").
Proof.
  intros Hpre Hmid Hv. unfold deserialize. cbn [de_hint de_visitor container_deserialize deserialize_value].
  unfold visit_object. cbn [visit_map].
  rewrite container_visit_map_skip by exact Hpre. cbn [container_visit_map].
  change (String.eqb "options" "options") with true. cbn iota.
  unfold options_field. rewrite Hv.
  rewrite container_visit_map_skip by exact Hmid. reflexivity.
Qed.

(** A value that is neither a map nor an array is refused as a
    [Container], against the expectation [struct Container]. *)
Theorem container_other_shape (v : Value) :
  is_map v = false -> is_array v = false ->
  deserialize (container_deserialize f) v
  = Err (invalid_type (value_unexpected v) "struct Container").
Proof.
  destruct v as [ | b | [k | z | r] | s | l | m ]; simpl; intros Hm Ha;
    try discriminate; reflexivity.
Qed.

(** The array form: its one element goes through [string_or_struct]; an
    empty array lacks the field and a longer one has elements left over. *)
Theorem container_array_form (l : list Value) :
  deserialize (container_deserialize f) (VArray l) =
  match l with
  | [] => Err (invalid_length 0 "struct Container with 1 element")
  | [v] => map_result mkContainer (string_or_struct options_deserialize f v)
  | v :: _ :: _ =>
      match string_or_struct options_deserialize f v with
      | Err e => Err e
      | Ok _ => Err (invalid_length (length l) "fewer elements in array")
      end
  end.
Proof.
  unfold deserialize. cbn [de_hint de_visitor container_deserialize deserialize_value].
  unfold visit_array. cbn [visit_seq].
  destruct l as [ | v [ | w l ] ]; [reflexivity | | ];
    unfold container_visit_seq, options_field;
    destruct (string_or_struct options_deserialize f v); reflexivity.
Qed.

End ContainerFacts.

(** [Options]' derived decoder reads every entry of the map, so serde_json's
    leftover-entries check never fires: through [string_or_struct] a map
    gives just the decoder's value or error. *)
Theorem string_or_struct_options_map (f : string -> result Options)
    (m : list (string * Value)) :
  string_or_struct options_deserialize f (VObject m)
  = map_result fst (deserialize_from_map_access options_deserialize m).
Proof.
  rewrite string_or_struct_object. unfold visit_object, deserialize_from_map_access,
    deserialize_map_access.
  destruct (visit_map (de_visitor options_deserialize) m) as [[x rest] | e] eqn:Hv;
    [ | reflexivity].
  apply options_visit_map_rest in Hv. subst rest. reflexivity.
Qed.

(** The optional field may be absent: a map whose only [opt1]/[opt2] entry is
    [opt1] with a string gives [opt2 = None]; other keys are ignored. *)
Theorem options_opt2_absent (pre post : list (string * Value)) (a : string) :
  has_key "opt1" pre = false -> has_key "opt2" pre = false ->
  has_key "opt1" post = false -> has_key "opt2" post = false ->
  deserialize options_deserialize (VObject (pre ++ ("opt1", VString a) :: post)%list)
  = Ok (mkOptions a None).
Proof.
  intros H1 H2 H3 H4. unfold deserialize; cbn [de_hint de_visitor options_deserialize deserialize_value].
  unfold visit_object; cbn [visit_map].
  rewrite options_visit_map_skip by assumption. cbn [options_visit_map].
  change (String.eqb "opt1" "opt1") with true; cbn iota.
  change (deserialize string_deserialize (VString a)) with (@Ok string a); cbn iota.
  rewrite <- (app_nil_r post), options_visit_map_skip by assumption. reflexivity.
Qed.

(** Both fields present, in either order, with other keys around them: the
    result holds the [opt1] string and the decoded [Option<String>]. *)
Theorem options_both_fields (pre mid post : list (string * Value)) (a : string)
    (v : Value) (ob : option string) :
  has_key "opt1" pre = false -> has_key "opt2" pre = false ->
  has_key "opt1" mid = false -> has_key "opt2" mid = false ->
  has_key "opt1" post = false -> has_key "opt2" post = false ->
  deserialize option_string_deserialize v = Ok ob ->
  deserialize options_deserialize
    (VObject (pre ++ ("opt1", VString a) :: mid ++ ("opt2", v) :: post)%list)
  = Ok (mkOptions a ob) /\
  deserialize options_deserialize
    (VObject (pre ++ ("opt2", v) :: mid ++ ("opt1", VString a) :: post)%list)
  = Ok (mkOptions a ob).
Proof.
  intros H1 H2 H3 H4 H5 H6 Hv.
  unfold deserialize at 1 2; cbn [de_hint de_visitor options_deserialize deserialize_value].
  unfold visit_object; cbn [visit_map].
  split;
    rewrite options_visit_map_skip by assumption; cbn [options_visit_map];
    change (String.eqb "opt1" "opt1") with true;
    change (String.eqb "opt2" "opt1") with false;
    change (String.eqb "opt2" "opt2") with true; cbn iota;
    change (deserialize string_deserialize (VString a)) with (@Ok string a); cbn iota;
    rewrite ?Hv; cbn iota;
    rewrite options_visit_map_skip by assumption; cbn [options_visit_map];
    change (String.eqb "opt1" "opt1") with true;
    change (String.eqb "opt2" "opt1") with false;
    change (String.eqb "opt2" "opt2") with true; cbn iota;
    change (deserialize string_deserialize (VString a)) with (@Ok string a); cbn iota;
    rewrite ?Hv; cbn iota;
    rewrite <- (app_nil_r post), options_visit_map_skip by assumption; reflexivity.
Qed.

(** [opt1] is required: a map without an [opt1] key never decodes. *)
Theorem options_requires_opt1 (m : list (string * Value)) (x : Options) :
  has_key "opt1" m = false ->
  deserialize options_deserialize (VObject m) <> Ok x.
Proof.
  intros H. unfold deserialize; cbn [de_hint de_visitor options_deserialize deserialize_value].
  unfold visit_object; cbn [visit_map].
  destruct (options_visit_map None None m) as [[y rest] | e] eqn:Hv; [ | discriminate].
  exfalso. exact (options_visit_map_no_opt1 None m y rest H Hv).
Qed.

(** An [opt1] that is not a string is refused against [a string]. *)
Theorem options_opt1_not_string (pre post : list (string * Value)) (v : Value) :
  has_key "opt1" pre = false -> has_key "opt2" pre = false ->
  is_string v = false ->
  deserialize options_deserialize (VObject (pre ++ ("opt1", v) :: post)%list)
  = Err (invalid_type (value_unexpected v) "a string").
Proof.
  intros H1 H2 Hs. unfold deserialize at 1; cbn [de_hint de_visitor options_deserialize deserialize_value].
  unfold visit_object; cbn [visit_map].
  rewrite options_visit_map_skip by assumption. cbn [options_visit_map].
  change (String.eqb "opt1" "opt1") with true; cbn iota.
  destruct v as [ | b | [k | z | r] | s | l | m ]; try discriminate; reflexivity.
Qed.

(** A second [opt1] entry after one that decoded is refused with
    [duplicate field]. *)
Theorem options_duplicate_opt1 (pre mid post : list (string * Value)) (a : string)
    (v : Value) :
  has_key "opt1" pre = false -> has_key "opt2" pre = false ->
  has_key "opt1" mid = false -> has_key "opt2" mid = false ->
  deserialize options_deserialize
    (VObject (pre ++ ("opt1", VString a) :: mid ++ ("opt1", v) :: post)%list)
  = Err (duplicate_field "opt1").
Proof.
  intros H1 H2 H3 H4. unfold deserialize; cbn [de_hint de_visitor options_deserialize deserialize_value].
  unfold visit_object; cbn [visit_map].
  rewrite options_visit_map_skip by assumption. cbn [options_visit_map].
  change (String.eqb "opt1" "opt1") with true; cbn iota.
  change (deserialize string_deserialize (VString a)) with (@Ok string a); cbn iota.
  rewrite options_visit_map_skip by assumption. reflexivity.
Qed.

(** ** Witnesses for the test module's decoders *)

Lemma container_options_entry_witness :
  has_key "options" [("x", VNull)] = false /\ has_key "options" [] = false /\
  deserialize (container_deserialize options_from_opt1)
    (VObject ([("x", VNull)] ++ ("options", VObject sample_entries) :: [])%list)
  = map_result mkContainer
      (string_or_struct options_deserialize options_from_opt1 (VObject sample_entries)).
Proof.
  split; [reflexivity | split; [reflexivity | ]].
  apply (container_options_entry options_from_opt1); reflexivity.
Defined.

Lemma container_missing_options_witness :
  has_key "options" sample_entries = false /\
  deserialize (container_deserialize options_from_opt1) (VObject sample_entries)
  = Err (missing_field "options").
Proof.
  split; [reflexivity | ].
  apply (container_missing_options options_from_opt1); reflexivity.
Defined.

Lemma container_duplicate_options_witness :
  string_or_struct options_deserialize options_from_opt1 (VString "val1")
  = Ok (mkOptions "val1" None) /\
  deserialize (container_deserialize options_from_opt1)
    (VObject ([] ++ ("options", VString "val1") :: [("y", VNull)] ++
              ("options", VNumber (PosInt 1)) :: [])%list)
  = Err (duplicate_field "options").
Proof.
  split; [reflexivity | ].
  apply (container_duplicate_options options_from_opt1 [] [("y", VNull)] []
           (VString "val1") (VNumber (PosInt 1)) (mkOptions "val1" None));
    reflexivity.
Defined.

Lemma container_other_shape_witness :
  is_map (VString "s") = false /\ is_array (VString "s") = false /\
  deserialize (container_deserialize options_from_opt1) (VString "s")
  = Err (invalid_type (UStr "s") "struct Container").
Proof.
  split; [reflexivity | split; [reflexivity | ]].
  apply (container_other_shape options_from_opt1 (VString "s")); reflexivity.
Defined.

Lemma options_opt2_absent_witness :
  deserialize options_deserialize
    (VObject ([("z", VBool true)] ++ ("opt1", VString "val1") :: [])%list)
  = Ok (mkOptions "val1" None).
Proof. apply options_opt2_absent; reflexivity. Defined.

Lemma options_both_fields_witness :
  deserialize option_string_deserialize VNull = Ok None /\
  deserialize options_deserialize
    (VObject ([] ++ ("opt1", VString "val1") :: [] ++ ("opt2", VNull) :: [])%list)
  = Ok (mkOptions "val1" None).
Proof.
  split; [reflexivity | ].
  refine (proj1 (options_both_fields [] [] [] "val1" VNull None _ _ _ _ _ _ _));
    reflexivity.
Defined.

Lemma options_requires_opt1_witness :
  has_key "opt1" [("opt2", VString "val2")] = false /\
  deserialize options_deserialize (VObject [("opt2", VString "val2")])
  <> Ok (mkOptions "val1" None).
Proof.
  split; [reflexivity | ].
  apply options_requires_opt1; reflexivity.
Defined.

Lemma options_opt1_not_string_witness :
  is_string (VBool false) = false /\
  deserialize options_deserialize (VObject ([] ++ ("opt1", VBool false) :: [])%list)
  = Err (invalid_type (UBool false) "a string").
Proof.
  split; [reflexivity | ].
  apply (options_opt1_not_string [] [] (VBool false)); reflexivity.
Defined.

Lemma options_duplicate_opt1_witness :
  deserialize options_deserialize
    (VObject ([] ++ ("opt1", VString "a") :: [("q", VNull)] ++ ("opt1", VString "b") :: [])%list)
  = Err (duplicate_field "opt1").
Proof. apply options_duplicate_opt1; reflexivity. Defined.
